(** * Spring-mass engine: RK4 integrator and closed-form solution

    Shallow embedding of [src/lib/physics/physics.py] (class [SpringEngine]).

    Numbers.  Python floats are read as exact real numbers ([R]); rounding,
    overflow and signed zeros of IEEE-754 doubles are outside this model.
    What the model does keep of Python's arithmetic is its failure
    behaviour: [a / b] raises [ZeroDivisionError] when [b] is zero and
    [math.sqrt] raises [ValueError] on a negative argument.

    State.  The methods mutate [self]; here every method takes the engine
    and returns the engine after the call, inside the error monad.  All
    assignments to [self] happen after the last operation that can raise,
    so a raised error leaves the engine as it was. *)

From Stdlib Require Import Reals Lra String List.
Import ListNotations.

Local Open Scope R_scope.

(** ** Python's exceptions as an error monad *)

Inductive py_error : Set :=
| ZeroDivisionError
| ValueError.

Inductive result (A : Type) : Type :=
| Ok (a : A)
| Raise (e : py_error).

Arguments Ok {A} a.
Arguments Raise {A} e.

Definition bind {A B : Type} (r : result A) (f : A -> result B) : result B :=
  match r with
  | Ok a => f a
  | Raise e => Raise e
  end.

Declare Scope py_scope.
Delimit Scope py_scope with py.
Notation "x <- e ;; f" := (bind e (fun x => f))
  (at level 61, e at next level, right associativity) : py_scope.
Notation "' ( x , y ) <- e ;; f" := (bind e (fun p => let '(x, y) := p in f))
  (at level 61, x name, y name, e at next level, right associativity) : py_scope.
Local Open Scope py_scope.

(** ** Float operations that can raise *)

(** [a / b] on floats. *)
Definition py_div (a b : R) : result R :=
  if Req_dec_T b 0 then Raise ZeroDivisionError else Ok (a / b).

(** [math.sqrt(a)]. *)
Definition math_sqrt (a : R) : result R :=
  if Rlt_dec a 0 then Raise ValueError else Ok (sqrt a).

(** [math.hypot(x, y)]: the Euclidean norm; it never raises. *)
Definition math_hypot (x y : R) : R := sqrt (x * x + y * y).

(** ** Dictionaries returned to the caller *)

Inductive value : Type :=
| Str (s : string)
| Float (r : R).

Definition dict : Type := list (string * value).

Fixpoint dict_get (key : string) (d : dict) : option value :=
  match d with
  | [] => None
  | (k', v) :: rest => if String.eqb key k' then Some v else dict_get key rest
  end.

(** ** The engine *)

Record SpringEngine : Type := mkSpringEngine {
  m : R;          (* mass *)
  k : R;          (* spring constant *)
  c : R;          (* damping coefficient *)
  g : R;          (* gravity *)
  L0 : R;         (* natural spring length *)
  mode : string;  (* "1D" or "VECTOR" *)
  x : R;          (* displacement from equilibrium *)
  y : R;          (* horizontal displacement, VECTOR mode only *)
  vx : R;
  vy : R;
  t : R
}.

(** The constructor generated by [@dataclass]: it stores its arguments and
    checks nothing (the class has no [__post_init__]). *)
Definition SpringEngine_init (m k c g L0 : R) (mode : string)
    (x y vx vy t : R) : result SpringEngine :=
  Ok (mkSpringEngine m k c g L0 mode x y vx vy t).

(** The field defaults of the dataclass. *)
Definition default_engine : SpringEngine :=
  mkSpringEngine 1 10 0.5 9.81 1 "1D" 0.2 0 0 0 0.

(** Attribute assignment ([engine.m = v] and the like) on the three
    parameters the validity rules are about: a plain store. *)
Definition set_m (v : R) (self : SpringEngine) : result SpringEngine :=
  Ok (mkSpringEngine v (k self) (c self) (g self) (L0 self) (mode self)
        (x self) (y self) (vx self) (vy self) (t self)).

Definition set_k (v : R) (self : SpringEngine) : result SpringEngine :=
  Ok (mkSpringEngine (m self) v (c self) (g self) (L0 self) (mode self)
        (x self) (y self) (vx self) (vy self) (t self)).

Definition set_c (v : R) (self : SpringEngine) : result SpringEngine :=
  Ok (mkSpringEngine (m self) (k self) v (g self) (L0 self) (mode self)
        (x self) (y self) (vx self) (vy self) (t self)).

Definition set_mode (s : string) (self : SpringEngine) : SpringEngine :=
  mkSpringEngine (m self) (k self) (c self) (g self) (L0 self) s
    (x self) (y self) (vx self) (vy self) (t self).

(** *** [_step_1d] *)

(** The nested function [force(x, v)]. *)
Definition force (self : SpringEngine) (x v : R) : result R :=
  py_div (- k self * x - c self * v) (m self).

Definition _step_1d (self : SpringEngine) (dt : R) : result SpringEngine :=
  k1_v <- force self (x self) (vx self) ;;
  let k1_x := vx self in
  k2_v <- force self (x self + k1_x * dt / 2) (vx self + k1_v * dt / 2) ;;
  let k2_x := vx self + k1_v * dt / 2 in
  k3_v <- force self (x self + k2_x * dt / 2) (vx self + k2_v * dt / 2) ;;
  let k3_x := vx self + k2_v * dt / 2 in
  k4_v <- force self (x self + k3_x * dt) (vx self + k3_v * dt) ;;
  let k4_x := vx self + k3_v * dt in
  Ok (mkSpringEngine (m self) (k self) (c self) (g self) (L0 self) (mode self)
        (x self + dt * (k1_x + 2 * k2_x + 2 * k3_x + k4_x) / 6)
        (y self)
        (vx self + dt * (k1_v + 2 * k2_v + 2 * k3_v + k4_v) / 6)
        (vy self)
        (t self + dt)).

(** *** [_step_2d] *)

(** The nested function [forces(x, y, vx, vy)]. *)
Definition forces (self : SpringEngine) (x y vx vy : R) : result (R * R) :=
  let r := math_hypot x y in
  '(ux, uy) <- (if Rlt_dec r 1e-9 then Ok (0, 1)
                else ux <- py_div x r ;; uy <- py_div y r ;; Ok (ux, uy)) ;;
  let F_spring := - k self * (r - L0 self) in
  let v_radial := vx * ux + vy * uy in
  let F_damp := - c self * v_radial in
  let Fx := (F_spring + F_damp) * ux in
  let Fy := (F_spring + F_damp) * uy + m self * g self in
  ax <- py_div Fx (m self) ;;
  ay <- py_div Fy (m self) ;;
  Ok (ax, ay).

Definition _step_2d (self : SpringEngine) (dt : R) : result SpringEngine :=
  '(k1_ax, k1_ay) <- forces self (x self) (y self) (vx self) (vy self) ;;
  let k1_vx := vx self in
  let k1_vy := vy self in
  '(k2_ax, k2_ay) <- forces self (x self + k1_vx * dt / 2) (y self + k1_vy * dt / 2)
                       (vx self + k1_ax * dt / 2) (vy self + k1_ay * dt / 2) ;;
  let k2_vx := vx self + k1_ax * dt / 2 in
  let k2_vy := vy self + k1_ay * dt / 2 in
  '(k3_ax, k3_ay) <- forces self (x self + k2_vx * dt / 2) (y self + k2_vy * dt / 2)
                       (vx self + k2_ax * dt / 2) (vy self + k2_ay * dt / 2) ;;
  let k3_vx := vx self + k2_ax * dt / 2 in
  let k3_vy := vy self + k2_ay * dt / 2 in
  '(k4_ax, k4_ay) <- forces self (x self + k3_vx * dt) (y self + k3_vy * dt)
                       (vx self + k3_ax * dt) (vy self + k3_ay * dt) ;;
  let k4_vx := vx self + k3_ax * dt in
  let k4_vy := vy self + k3_ay * dt in
  Ok (mkSpringEngine (m self) (k self) (c self) (g self) (L0 self) (mode self)
        (x self + dt * (k1_vx + 2 * k2_vx + 2 * k3_vx + k4_vx) / 6)
        (y self + dt * (k1_vy + 2 * k2_vy + 2 * k3_vy + k4_vy) / 6)
        (vx self + dt * (k1_ax + 2 * k2_ax + 2 * k3_ax + k4_ax) / 6)
        (vy self + dt * (k1_ay + 2 * k2_ay + 2 * k3_ay + k4_ay) / 6)
        (t self + dt)).

(** *** [step] *)

(** The dictionary [step] returns, read off the engine after the update. *)
Definition state_dict (self : SpringEngine) : dict :=
  [ ("x"%string, Float (x self)); ("y"%string, Float (y self));
    ("vx"%string, Float (vx self)); ("vy"%string, Float (vy self));
    ("t"%string, Float (t self)) ].

Definition step (self : SpringEngine) (dt : R) : result (SpringEngine * dict) :=
  self' <- (if String.eqb (mode self) "1D" then _step_1d self dt
            else _step_2d self dt) ;;
  Ok (self', state_dict self').

(** *** [get_analytical_solution] *)

Definition get_analytical_solution (self : SpringEngine) : result dict :=
  q <- py_div (k self) (m self) ;;
  omega_n <- math_sqrt q ;;
  s <- math_sqrt (k self * m self) ;;
  zeta <- py_div (c self) (2 * s) ;;
  '(x0, v0) <-
     (if String.eqb (mode self) "1D" then Ok (x self, vx self)
      else
        let r_current := math_hypot (x self) (y self) in
        let x0 := r_current in
        v0 <- (if Rgt_dec r_current 1e-9
               then py_div (vx self * x self + vy self * y self) r_current
               else Ok 0) ;;
        Ok (x0, v0)) ;;
  if Rlt_dec zeta 1 then
    (* Underdamped *)
    sq <- math_sqrt (1 - zeta ^ 2) ;;
    let omega_d := omega_n * sq in
    let A := x0 in
    B <- py_div (v0 + zeta * omega_n * x0) omega_d ;;
    Ok [ ("case"%string, Str "underdamped"); ("omega_n"%string, Float omega_n);
         ("omega_d"%string, Float omega_d); ("zeta"%string, Float zeta);
         ("A"%string, Float A); ("B"%string, Float B) ]
  else if Rlt_dec (Rabs (zeta - 1)) 1e-9 then
    (* Critical *)
    let A := x0 in
    let B := v0 + omega_n * x0 in
    Ok [ ("case"%string, Str "critical"); ("omega_n"%string, Float omega_n);
         ("zeta"%string, Float zeta); ("A"%string, Float A); ("B"%string, Float B) ]
  else
    (* Overdamped *)
    sqrt_term <- math_sqrt (zeta ^ 2 - 1) ;;
    let r1 := - omega_n * (zeta - sqrt_term) in
    let r2 := - omega_n * (zeta + sqrt_term) in
    let det := r2 - r1 in
    A <- py_div (r2 * x0 - v0) det ;;
    B <- py_div (v0 - r1 * x0) det ;;
    Ok [ ("case"%string, Str "overdamped"); ("omega_n"%string, Float omega_n);
         ("zeta"%string, Float zeta); ("r1"%string, Float r1);
         ("r2"%string, Float r2); ("A"%string, Float A); ("B"%string, Float B) ].

(** The engine of the module's self-test: [SpringEngine(m=1.0, k=4.0, c=0.2)]. *)
Definition test_engine : SpringEngine :=
  mkSpringEngine 1 4 0.2 9.81 1 "1D" 0.2 0 0 0 0.

(** The driver loop of the self-test, [for i in range(n): engine.step(dt)]:
    [n] successive calls on the same engine. *)
Fixpoint run (n : nat) (self : SpringEngine) (dt : R) : result SpringEngine :=
  match n with
  | O => Ok self
  | S n' => '(self', _) <- step self dt ;; run n' self' dt
  end.

(** ** The specification's vocabulary *)

(** The fixed-step RK4 scheme, once and for all state types: [add] and
    [scale] are the vector operations on states, [f] the derivative. *)
Section RK4.
Variable state : Type.
Variable add : state -> state -> state.
Variable scale : R -> state -> state.
Variable f : state -> state.

Definition rk4_spec (s : state) (dt : R) : state :=
  let k1 := f s in
  let k2 := f (add s (scale (dt / 2) k1)) in
  let k3 := f (add s (scale (dt / 2) k2)) in
  let k4 := f (add s (scale dt k3)) in
  add s (scale (dt / 6)
           (add k1 (add (scale 2 k2) (add (scale 2 k3) k4)))).
End RK4.

(** The one-dimensional state is [(x, v)]. *)
Definition add2 (a b : R * R) : R * R := (fst a + fst b, snd a + snd b).
Definition scale2 (h : R) (a : R * R) : R * R := (h * fst a, h * snd a).

(** [a(x, v) = (-k x - c v) / m] and the derivative of [(x, v)]. *)
Definition accel_spec (self : SpringEngine) (x v : R) : R :=
  (- k self * x - c self * v) / m self.

Definition deriv_1d_spec (self : SpringEngine) (s : R * R) : R * R :=
  (snd s, accel_spec self (fst s) (snd s)).

(** The Vector force law, in the specification's words. *)
Definition unit_vector_spec (x y : R) : R * R :=
  let r := math_hypot x y in
  if Rlt_dec r 1e-9 then (0, 1) else (x / r, y / r).

Definition forces_spec (self : SpringEngine) (x y vx vy : R) : R * R :=
  let r := math_hypot x y in
  let '(ux, uy) := unit_vector_spec x y in
  let F_spring := - k self * (r - L0 self) in
  let v_r := vx * ux + vy * uy in
  let F_damp := - c self * v_r in
  ((F_spring + F_damp) * ux / m self,
   ((F_spring + F_damp) * uy + m self * g self) / m self).

(** Natural frequency, damping ratio and the mode-dependent initial
    conditions of the closed-form solution. *)
Definition omega_n_spec (self : SpringEngine) : R := sqrt (k self / m self).

Definition zeta_spec (self : SpringEngine) : R :=
  c self / (2 * sqrt (k self * m self)).

Definition x0_spec (self : SpringEngine) : R :=
  if String.eqb (mode self) "1D" then x self
  else math_hypot (x self) (y self).

Definition v0_spec (self : SpringEngine) : R :=
  if String.eqb (mode self) "1D" then vx self
  else
    let r := math_hypot (x self) (y self) in
    if Rgt_dec r 1e-9 then (vx self * x self + vy self * y self) / r else 0.

(** The engine with its four integrated coordinates and its clock replaced. *)
Definition with_state (self : SpringEngine) (x' y' vx' vy' t' : R) : SpringEngine :=
  mkSpringEngine (m self) (k self) (c self) (g self) (L0 self) (mode self)
    x' y' vx' vy' t'.

(** The engine [_step_2d] leaves behind, as a function of the four
    acceleration pairs the stages found. *)
Definition step_2d_value (self : SpringEngine) (dt : R) : SpringEngine :=
  let a1 := forces_spec self (x self) (y self) (vx self) (vy self) in
  let a2 := forces_spec self (x self + vx self * dt / 2) (y self + vy self * dt / 2)
              (vx self + fst a1 * dt / 2) (vy self + snd a1 * dt / 2) in
  let a3 := forces_spec self
              (x self + (vx self + fst a1 * dt / 2) * dt / 2)
              (y self + (vy self + snd a1 * dt / 2) * dt / 2)
              (vx self + fst a2 * dt / 2) (vy self + snd a2 * dt / 2) in
  let a4 := forces_spec self
              (x self + (vx self + fst a2 * dt / 2) * dt)
              (y self + (vy self + snd a2 * dt / 2) * dt)
              (vx self + fst a3 * dt) (vy self + snd a3 * dt) in
  with_state self
    (x self + dt * (vx self + 2 * (vx self + fst a1 * dt / 2)
                    + 2 * (vx self + fst a2 * dt / 2) + (vx self + fst a3 * dt)) / 6)
    (y self + dt * (vy self + 2 * (vy self + snd a1 * dt / 2)
                    + 2 * (vy self + snd a2 * dt / 2) + (vy self + snd a3 * dt)) / 6)
    (vx self + dt * (fst a1 + 2 * fst a2 + 2 * fst a3 + fst a4) / 6)
    (vy self + dt * (snd a1 + 2 * snd a2 + 2 * snd a3 + snd a4) / 6)
    (t self + dt).

(** The engine [step] leaves behind. *)
Definition step_value (self : SpringEngine) (dt : R) : SpringEngine :=
  if String.eqb (mode self) "1D" then
    let s' := rk4_spec (R * R) add2 scale2 (deriv_1d_spec self) (x self, vx self) dt in
    with_state self (fst s') (y self) (snd s') (vy self) (t self + dt)
  else step_2d_value self dt.

(** The three descriptors, in the specification's words. *)
Definition underdamped_spec (self : SpringEngine) : dict :=
  let omega_n := omega_n_spec self in
  let zeta := zeta_spec self in
  let x0 := x0_spec self in
  let v0 := v0_spec self in
  let omega_d := omega_n * sqrt (1 - zeta ^ 2) in
  [ ("case"%string, Str "underdamped"); ("omega_n"%string, Float omega_n);
    ("omega_d"%string, Float omega_d); ("zeta"%string, Float zeta);
    ("A"%string, Float x0);
    ("B"%string, Float ((v0 + zeta * omega_n * x0) / omega_d)) ].

Definition critical_spec (self : SpringEngine) : dict :=
  let omega_n := omega_n_spec self in
  let zeta := zeta_spec self in
  let x0 := x0_spec self in
  let v0 := v0_spec self in
  [ ("case"%string, Str "critical"); ("omega_n"%string, Float omega_n);
    ("zeta"%string, Float zeta); ("A"%string, Float x0);
    ("B"%string, Float (v0 + omega_n * x0)) ].

Definition r1_spec (self : SpringEngine) : R :=
  - omega_n_spec self * (zeta_spec self - sqrt (zeta_spec self ^ 2 - 1)).

Definition r2_spec (self : SpringEngine) : R :=
  - omega_n_spec self * (zeta_spec self + sqrt (zeta_spec self ^ 2 - 1)).

Definition overdamped_spec (self : SpringEngine) : dict :=
  let omega_n := omega_n_spec self in
  let zeta := zeta_spec self in
  let x0 := x0_spec self in
  let v0 := v0_spec self in
  let r1 := r1_spec self in
  let r2 := r2_spec self in
  let det := r2 - r1 in
  [ ("case"%string, Str "overdamped"); ("omega_n"%string, Float omega_n);
    ("zeta"%string, Float zeta); ("r1"%string, Float r1); ("r2"%string, Float r2);
    ("A"%string, Float ((r2 * x0 - v0) / det));
    ("B"%string, Float ((v0 - r1 * x0) / det)) ].

(** Engines with [m = 1], [k = 4] and a chosen damping, as in the
    scenarios: their damping ratio is [c / 4] and [omega_n = 2]. *)
Definition scenario_engine (damping : R) : SpringEngine :=
  mkSpringEngine 1 4 damping 9.81 1 "1D" 0.2 0 0 0 0.

(** A Vector-mode engine at the origin [(0, 0)] with velocity [(3, 4)]. *)
Definition origin_engine : SpringEngine :=
  mkSpringEngine 1 10 0.5 9.81 1 "VECTOR" 0 0 3 4 0.

(** An engine whose mode string is neither "1D" nor "VECTOR". *)
Definition polar_engine : SpringEngine :=
  mkSpringEngine 1 10 0.5 9.81 1 "POLAR" 3 4 0 0 0.

(** ** Quantities the further properties are stated with *)

(** Mechanical energy of the one-dimensional oscillator,
    [m v^2 / 2 + k x^2 / 2]. *)
Definition energy (self : SpringEngine) : R :=
  m self * vx self ^ 2 / 2 + k self * x self ^ 2 / 2.

(** An engine rebuilt with other gravity, natural length and vertical
    coordinates: everything the one-dimensional step has no use for. *)
Definition with_unused_1d (self : SpringEngine) (g' len' y' vy' : R) : SpringEngine :=
  mkSpringEngine (m self) (k self) (c self) g' len' (mode self)
    (x self) y' (vx self) vy' (t self).

(** The engine mirrored in the vertical axis. *)
Definition mirror_x (self : SpringEngine) : SpringEngine :=
  mkSpringEngine (m self) (k self) (c self) (g self) (L0 self) (mode self)
    (- x self) (y self) (- vx self) (vy self) (t self).

(** Two engines agree on everything but their state and clock. *)
Definition same_parameters (a b : SpringEngine) : Prop :=
  m a = m b /\ k a = k b /\ c a = c b /\ g a = g b /\ L0 a = L0 b /\
  mode a = mode b.

(** What one step of size [dt] multiplies the energy of the undamped
    oscillator by, with [z = k dt^2 / m]. *)
Definition undamped_energy_factor (self : SpringEngine) (dt : R) : R :=
  let z := k self * dt ^ 2 / m self in
  1 - z ^ 3 / 72 + z ^ 4 / 576.

(** The engine reflected through the origin: position and velocity
    negated. *)
Definition reflect_origin (self : SpringEngine) : SpringEngine :=
  mkSpringEngine (m self) (k self) (c self) (g self) (L0 self) (mode self)
    (- x self) (- y self) (- vx self) (- vy self) (t self).

(** ** Basic facts about the arithmetic *)

Lemma py_div_ok (a b : R) : b <> 0 -> py_div a b = Ok (a / b).
Proof.
  intros Hb. unfold py_div. destruct (Req_dec_T b 0) as [E | _].
  - contradiction.
  - reflexivity.
Qed.

Lemma py_div_zero (a b : R) : b = 0 -> py_div a b = Raise ZeroDivisionError.
Proof.
  intros Hb. unfold py_div. destruct (Req_dec_T b 0) as [_ | N].
  - reflexivity.
  - contradiction.
Qed.

Lemma math_sqrt_ok (a : R) : 0 <= a -> math_sqrt a = Ok (sqrt a).
Proof.
  intros Ha. unfold math_sqrt. destruct (Rlt_dec a 0) as [L | _].
  - lra.
  - reflexivity.
Qed.

Lemma math_sqrt_neg (a : R) : a < 0 -> math_sqrt a = Raise ValueError.
Proof.
  intros Ha. unfold math_sqrt. destruct (Rlt_dec a 0) as [_ | N].
  - reflexivity.
  - contradiction.
Qed.

Lemma math_hypot_nonneg (x y : R) : 0 <= math_hypot x y.
Proof. unfold math_hypot. apply sqrt_pos. Qed.

Lemma math_hypot_origin : math_hypot 0 0 = 0.
Proof.
  unfold math_hypot. replace (0 * 0 + 0 * 0) with 0 by ring. apply sqrt_0.
Qed.

Lemma tiny_pos : 0 < 1e-9.
Proof. lra. Qed.

(** ** The one-dimensional step *)

Lemma force_ok (self : SpringEngine) (x v : R) :
  m self <> 0 -> force self x v = Ok (accel_spec self x v).
Proof. intros Hm. unfold force, accel_spec. now apply py_div_ok. Qed.

Lemma force_zero_mass (self : SpringEngine) (x v : R) :
  m self = 0 -> force self x v = Raise ZeroDivisionError.
Proof. intros Hm. unfold force. now apply py_div_zero. Qed.

Lemma step_1d_rk4 (self : SpringEngine) (dt : R) :
  m self <> 0 ->
  let s' := rk4_spec (R * R) add2 scale2 (deriv_1d_spec self) (x self, vx self) dt in
  _step_1d self dt = Ok (with_state self (fst s') (y self) (snd s') (vy self) (t self + dt)).
Proof.
  intros Hm s'. unfold _step_1d.
  repeat (rewrite force_ok by exact Hm; cbn [bind]).
  unfold with_state. f_equal. subst s'.
  unfold rk4_spec, deriv_1d_spec, add2, scale2, accel_spec. cbn [fst snd].
  f_equal; field; exact Hm.
Qed.

(** ** The vector step *)

(** Past the degenerate-radius test the radius is a legal divisor. *)
Lemma radius_divisor (r : R) : ~ r < 1e-9 -> r <> 0.
Proof. intros Hr E. apply Hr. rewrite E. exact tiny_pos. Qed.

Lemma forces_ok (self : SpringEngine) (x y vx vy : R) :
  m self <> 0 -> forces self x y vx vy = Ok (forces_spec self x y vx vy).
Proof.
  intros Hm. unfold forces, forces_spec, unit_vector_spec.
  destruct (Rlt_dec (math_hypot x y) 1e-9) as [Hr | Hr]; cbn [bind].
  - rewrite !py_div_ok by exact Hm. reflexivity.
  - rewrite !py_div_ok by exact (radius_divisor _ Hr). cbn [bind].
    rewrite !py_div_ok by exact Hm. reflexivity.
Qed.

Lemma forces_zero_mass (self : SpringEngine) (x y vx vy : R) :
  m self = 0 -> forces self x y vx vy = Raise ZeroDivisionError.
Proof.
  intros Hm. unfold forces.
  destruct (Rlt_dec (math_hypot x y) 1e-9) as [Hr | Hr]; cbn [bind].
  - now rewrite py_div_zero.
  - rewrite !py_div_ok by exact (radius_divisor _ Hr). cbn [bind].
    now rewrite py_div_zero.
Qed.

Lemma step_2d_ok (self : SpringEngine) (dt : R) :
  m self <> 0 -> _step_2d self dt = Ok (step_2d_value self dt).
Proof.
  intros Hm. unfold _step_2d, step_2d_value.
  rewrite forces_ok by exact Hm. cbn [bind].
  destruct (forces_spec self (x self) (y self) (vx self) (vy self)) as [a1x a1y].
  cbn [fst snd].
  rewrite forces_ok by exact Hm. cbn [bind].
  destruct (forces_spec self _ _ (vx self + a1x * dt / 2) _) as [a2x a2y].
  cbn [fst snd].
  rewrite forces_ok by exact Hm. cbn [bind].
  destruct (forces_spec self _ _ (vx self + a2x * dt / 2) _) as [a3x a3y].
  cbn [fst snd].
  rewrite forces_ok by exact Hm. cbn [bind].
  destruct (forces_spec self _ _ (vx self + a3x * dt) _) as [a4x a4y].
  reflexivity.
Qed.

Lemma step_2d_zero_mass (self : SpringEngine) (dt : R) :
  m self = 0 -> _step_2d self dt = Raise ZeroDivisionError.
Proof. intros Hm. unfold _step_2d. now rewrite forces_zero_mass. Qed.

Lemma step_1d_zero_mass (self : SpringEngine) (dt : R) :
  m self = 0 -> _step_1d self dt = Raise ZeroDivisionError.
Proof. intros Hm. unfold _step_1d. now rewrite force_zero_mass. Qed.

(** ** [step]: the value it returns and what it leaves alone *)

Lemma step_ok (self : SpringEngine) (dt : R) :
  m self <> 0 ->
  step self dt = Ok (step_value self dt, state_dict (step_value self dt)).
Proof.
  intros Hm. unfold step, step_value.
  destruct (String.eqb (mode self) "1D").
  - rewrite step_1d_rk4 by exact Hm. reflexivity.
  - rewrite step_2d_ok by exact Hm. reflexivity.
Qed.

Lemma step_zero_mass (self : SpringEngine) (dt : R) :
  m self = 0 -> step self dt = Raise ZeroDivisionError.
Proof.
  intros Hm. unfold step. destruct (String.eqb (mode self) "1D").
  - now rewrite step_1d_zero_mass.
  - now rewrite step_2d_zero_mass.
Qed.

Lemma step_value_m (self : SpringEngine) (dt : R) :
  m (step_value self dt) = m self.
Proof. unfold step_value. destruct (String.eqb (mode self) "1D"); reflexivity. Qed.

Lemma step_value_t (self : SpringEngine) (dt : R) :
  t (step_value self dt) = t self + dt.
Proof. unfold step_value. destruct (String.eqb (mode self) "1D"); reflexivity. Qed.

Lemma step_value_params (self : SpringEngine) (dt : R) :
  let self' := step_value self dt in
  k self' = k self /\ c self' = c self /\ g self' = g self /\
  L0 self' = L0 self /\ mode self' = mode self.
Proof.
  unfold step_value. destruct (String.eqb (mode self) "1D"); cbn; repeat split.
Qed.

(** ** The closed-form solution *)

Section Analytical.
Variable self : SpringEngine.
Hypothesis Hm : 0 < m self.
Hypothesis Hk : 0 < k self.

Lemma stiffness_over_mass_pos : 0 < k self / m self.
Proof. now apply Rdiv_lt_0_compat. Qed.

Lemma omega_n_pos : 0 < omega_n_spec self.
Proof. unfold omega_n_spec. apply sqrt_lt_R0. exact stiffness_over_mass_pos. Qed.

Lemma zeta_divisor_pos : 0 < 2 * sqrt (k self * m self).
Proof.
  apply Rmult_lt_0_compat; [lra |].
  apply sqrt_lt_R0. now apply Rmult_lt_0_compat.
Qed.

(** With a negative damping coefficient aside, the ratio is not negative. *)
Lemma zeta_nonneg : 0 <= c self -> 0 <= zeta_spec self.
Proof.
  intros Hc. unfold zeta_spec. apply Rmult_le_pos; [exact Hc |].
  apply Rlt_le, Rinv_0_lt_compat, zeta_divisor_pos.
Qed.

(** The extraction of [(x0, v0)] never raises. *)
Lemma initial_conditions_ok :
  (if String.eqb (mode self) "1D" then Ok (x self, vx self)
   else
     v0 <- (if Rgt_dec (math_hypot (x self) (y self)) 1e-9
            then py_div (vx self * x self + vy self * y self)
                   (math_hypot (x self) (y self))
            else Ok 0) ;;
     Ok (math_hypot (x self) (y self), v0))
  = Ok (x0_spec self, v0_spec self).
Proof.
  unfold x0_spec, v0_spec. destruct (String.eqb (mode self) "1D").
  - reflexivity.
  - cbv zeta. destruct (Rgt_dec (math_hypot (x self) (y self)) 1e-9) as [Hr | Hr].
    + rewrite py_div_ok; [reflexivity |].
      pose proof tiny_pos. unfold Rgt in Hr. lra.
    + reflexivity.
Qed.

(** The function up to its three-way branch. *)
Lemma analytical_branches :
  get_analytical_solution self =
  (let omega_n := omega_n_spec self in
   let zeta := zeta_spec self in
   let x0 := x0_spec self in
   let v0 := v0_spec self in
   if Rlt_dec zeta 1 then
     sq <- math_sqrt (1 - zeta ^ 2) ;;
     let omega_d := omega_n * sq in
     B <- py_div (v0 + zeta * omega_n * x0) omega_d ;;
     Ok [ ("case"%string, Str "underdamped"); ("omega_n"%string, Float omega_n);
          ("omega_d"%string, Float omega_d); ("zeta"%string, Float zeta);
          ("A"%string, Float x0); ("B"%string, Float B) ]
   else if Rlt_dec (Rabs (zeta - 1)) 1e-9 then Ok (critical_spec self)
   else
     sqrt_term <- math_sqrt (zeta ^ 2 - 1) ;;
     let r1 := - omega_n * (zeta - sqrt_term) in
     let r2 := - omega_n * (zeta + sqrt_term) in
     let det := r2 - r1 in
     A <- py_div (r2 * x0 - v0) det ;;
     B <- py_div (v0 - r1 * x0) det ;;
     Ok [ ("case"%string, Str "overdamped"); ("omega_n"%string, Float omega_n);
          ("zeta"%string, Float zeta); ("r1"%string, Float r1);
          ("r2"%string, Float r2); ("A"%string, Float A); ("B"%string, Float B) ]).
Proof.
  unfold get_analytical_solution.
  rewrite py_div_ok by lra. cbn [bind].
  rewrite math_sqrt_ok by (apply Rlt_le, stiffness_over_mass_pos). cbn [bind].
  rewrite math_sqrt_ok by (apply Rlt_le; now apply Rmult_lt_0_compat). cbn [bind].
  rewrite py_div_ok by (apply Rgt_not_eq, zeta_divisor_pos). cbn [bind].
  rewrite initial_conditions_ok. cbn [bind].
  reflexivity.
Qed.

Lemma analytical_underdamped :
  -1 < zeta_spec self < 1 ->
  get_analytical_solution self = Ok (underdamped_spec self).
Proof.
  intros [Hlo Hhi]. rewrite analytical_branches. cbv zeta.
  destruct (Rlt_dec (zeta_spec self) 1) as [_ | N]; [| contradiction].
  assert (Hrad : 0 < 1 - zeta_spec self ^ 2) by nra.
  rewrite math_sqrt_ok by lra. cbn [bind].
  rewrite py_div_ok; [reflexivity |].
  apply Rgt_not_eq, Rmult_lt_0_compat; [exact omega_n_pos |].
  now apply sqrt_lt_R0.
Qed.

Lemma analytical_critical :
  1 <= zeta_spec self < 1 + 1e-9 ->
  get_analytical_solution self = Ok (critical_spec self).
Proof.
  intros [Hlo Hhi]. rewrite analytical_branches. cbv zeta.
  destruct (Rlt_dec (zeta_spec self) 1) as [L | _]; [lra |].
  destruct (Rlt_dec (Rabs (zeta_spec self - 1)) 1e-9) as [_ | N]; [reflexivity |].
  exfalso. apply N. rewrite Rabs_pos_eq; lra.
Qed.

Lemma overdamped_root_gap :
  1 + 1e-9 <= zeta_spec self -> 0 < sqrt (zeta_spec self ^ 2 - 1).
Proof. intros Hz. apply sqrt_lt_R0. pose proof tiny_pos. nra. Qed.

Lemma overdamped_det_nonzero :
  1 + 1e-9 <= zeta_spec self -> r2_spec self - r1_spec self <> 0.
Proof.
  intros Hz. pose proof (overdamped_root_gap Hz) as Hs.
  pose proof omega_n_pos as Hw. unfold r1_spec, r2_spec. nra.
Qed.

Lemma analytical_overdamped :
  1 + 1e-9 <= zeta_spec self ->
  get_analytical_solution self = Ok (overdamped_spec self).
Proof.
  intros Hz. rewrite analytical_branches. cbv zeta.
  pose proof tiny_pos as Htiny.
  destruct (Rlt_dec (zeta_spec self) 1) as [L | _]; [lra |].
  destruct (Rlt_dec (Rabs (zeta_spec self - 1)) 1e-9) as [L | _].
  { rewrite Rabs_pos_eq in L; lra. }
  rewrite math_sqrt_ok by nra. cbn [bind].
  pose proof (overdamped_det_nonzero Hz) as Hdet. unfold r1_spec, r2_spec in Hdet.
  rewrite !py_div_ok by exact Hdet. reflexivity.
Qed.


(** On valid parameters with a positive stiffness the function returns. *)
Lemma analytical_total :
  0 <= c self -> exists d, get_analytical_solution self = Ok d.
Proof.
  intros Hc. pose proof (zeta_nonneg Hc) as Hz.
  destruct (Rlt_dec (zeta_spec self) 1) as [L | N].
  - exists (underdamped_spec self). apply analytical_underdamped. lra.
  - destruct (Rlt_dec (zeta_spec self) (1 + 1e-9)) as [L' | N'].
    + exists (critical_spec self). apply analytical_critical. lra.
    + exists (overdamped_spec self). apply analytical_overdamped. lra.
Qed.
End Analytical.

(** The lower half of the tie-break band is never reached: the test
    [zeta < 1.0] comes first. *)
Lemma band_below_one_is_underdamped (self : SpringEngine) :
  0 < m self -> 0 < k self -> 1 - 1e-9 < zeta_spec self < 1 ->
  Rabs (zeta_spec self - 1) < 1e-9 /\
  get_analytical_solution self = Ok (underdamped_spec self).
Proof.
  intros Hm Hk [Hlo Hhi]. pose proof tiny_pos as Htiny. split.
  - rewrite Rabs_left by lra. lra.
  - apply analytical_underdamped; [exact Hm | exact Hk | lra].
Qed.

(** The upper half of the band is what the second test catches. *)
Lemma band_from_one_is_critical (self : SpringEngine) :
  0 < m self -> 0 < k self -> 1 <= zeta_spec self < 1 + 1e-9 ->
  Rabs (zeta_spec self - 1) < 1e-9 /\
  get_analytical_solution self = Ok (critical_spec self).
Proof.
  intros Hm Hk Hz. split.
  - rewrite Rabs_pos_eq; lra.
  - now apply analytical_critical.
Qed.

(** Without stiffness the damping ratio has a zero divisor. *)
Lemma analytical_zero_stiffness (self : SpringEngine) :
  m self <> 0 -> k self = 0 ->
  get_analytical_solution self = Raise ZeroDivisionError.
Proof.
  intros Hm Hk. unfold get_analytical_solution.
  rewrite py_div_ok by exact Hm. cbn [bind]. rewrite Hk.
  replace (0 / m self) with 0 by (field; exact Hm).
  replace (0 * m self) with 0 by ring.
  rewrite !math_sqrt_ok by lra. cbn [bind].
  rewrite py_div_zero; [reflexivity |].
  rewrite sqrt_0. ring.
Qed.

Lemma sqrt_4 : sqrt 4 = 2.
Proof. replace 4 with (2 * 2) by ring. apply sqrt_square. lra. Qed.

Lemma scenario_zeta (damping : R) : zeta_spec (scenario_engine damping) = damping / 4.
Proof.
  unfold zeta_spec. cbn [k m c scenario_engine].
  replace (4 * 1) with 4 by ring. rewrite sqrt_4. field.
Qed.

Lemma scenario_omega_n (damping : R) : omega_n_spec (scenario_engine damping) = 2.
Proof.
  unfold omega_n_spec. cbn [k m scenario_engine].
  replace (4 / 1) with 4 by field. exact sqrt_4.
Qed.

(** ** Repeated calls and the mode string *)

(** Successive calls: each succeeds and the clock gains [dt]. *)
Lemma run_clock (n : nat) (dt : R) :
  forall self, m self <> 0 ->
  exists self', run n self dt = Ok self' /\ m self' = m self /\
                mode self' = mode self /\ t self' = t self + INR n * dt.
Proof.
  induction n as [| n IH]; intros self Hm.
  - exists self. cbn [run INR]. repeat split. ring.
  - cbn [run]. rewrite step_ok by exact Hm. cbn [bind].
    destruct (IH (step_value self dt)) as [self' [Hrun [Hm' [Hmode' Ht']]]].
    { rewrite step_value_m. exact Hm. }
    exists self'. split; [exact Hrun |].
    rewrite Hm', Hmode', Ht', step_value_m, step_value_t, S_INR.
    destruct (step_value_params self dt) as [_ [_ [_ [_ Hmode]]]].
    repeat split; [exact Hmode | ring].
Qed.

(** Case split on the next call of [forces] the goal is waiting for: the
    first goal has its pair of accelerations, the second its error. *)
Ltac case_forces :=
  match goal with
  | |- context [bind (forces ?e ?a ?b ?u ?v) _] =>
      destruct (forces e a b u v) as [[? ?] | ?]; cbn [bind]
  end.

(** The vector step reads every field but [mode], which it carries along. *)
Lemma step_2d_ignores_mode (s : string) (self : SpringEngine) (dt : R) :
  _step_2d (set_mode s self) dt
  = (self' <- _step_2d self dt ;; Ok (set_mode s self')).
Proof.
  unfold _step_2d.
  change (forces (set_mode s self)) with (forces self).
  cbn [set_mode m k c g L0 mode x y vx vy t].
  repeat (case_forces; [| reflexivity]).
  reflexivity.
Qed.

Lemma set_mode_same (self : SpringEngine) : set_mode (mode self) self = self.
Proof. destruct self. reflexivity. Qed.

Lemma step_2d_keeps_mode (self self' : SpringEngine) (dt : R) :
  _step_2d self dt = Ok self' -> mode self' = mode self.
Proof.
  unfold _step_2d.
  repeat (case_forces; [| discriminate]).
  intros H. injection H as <-. reflexivity.
Qed.

Lemma analytical_ignores_mode_name (s : string) (self : SpringEngine) :
  String.eqb s "1D" = String.eqb (mode self) "1D" ->
  get_analytical_solution (set_mode s self) = get_analytical_solution self.
Proof.
  intros E. unfold get_analytical_solution.
  cbn [set_mode m k c g L0 mode x y vx vy t]. rewrite E. reflexivity.
Qed.

Lemma math_hypot_3_4 : math_hypot 3 4 = 5.
Proof.
  unfold math_hypot. replace (3 * 3 + 4 * 4) with (5 * 5) by ring.
  apply sqrt_square. lra.
Qed.

(** ** The scenarios of the self-test and of the specification *)

(** [m = 1], [k = 4], [c = 0.2]: underdamped, [omega_n = 2], [zeta = 0.05]. *)
Lemma scenario_underdamped :
  let e := scenario_engine 0.2 in
  get_analytical_solution e = Ok (underdamped_spec e) /\
  omega_n_spec e = 2 /\ zeta_spec e = 0.05.
Proof.
  intros e. subst e. split; [| split].
  - apply analytical_underdamped; [cbn; lra | cbn; lra |].
    rewrite scenario_zeta. lra.
  - apply scenario_omega_n.
  - rewrite scenario_zeta. lra.
Qed.

(** [m = 1], [k = 4], [c = 4]: [zeta = 1], critical. *)
Lemma scenario_critical :
  let e := scenario_engine 4 in
  get_analytical_solution e = Ok (critical_spec e) /\ zeta_spec e = 1.
Proof.
  intros e. subst e. split.
  - apply analytical_critical; [cbn; lra | cbn; lra |].
    rewrite scenario_zeta. lra.
  - rewrite scenario_zeta. lra.
Qed.

(** [zeta = 0.999999999], the value the specification names: underdamped. *)
Lemma scenario_just_below_one :
  let e := scenario_engine 3.999999996 in
  zeta_spec e = 0.999999999 /\
  get_analytical_solution e = Ok (underdamped_spec e).
Proof.
  intros e. subst e. split.
  - rewrite scenario_zeta. lra.
  - apply analytical_underdamped; [cbn; lra | cbn; lra |].
    rewrite scenario_zeta. lra.
Qed.

(** * The claims *)

(** C1.  Inside the band [|zeta - 1| < 1e-9] but below one the engine does
    not answer "critical": with [m = 1], [k = 4], [c = 3.999999998] the
    damping ratio is [0.9999999995], the band test would hold, and
    [get_analytical_solution] returns the underdamped descriptor. *)
Theorem near_critical_below_one_reported_underdamped :
  let e := scenario_engine 3.999999998 in
  zeta_spec e = 0.9999999995 /\
  Rabs (zeta_spec e - 1) < 1e-9 /\
  get_analytical_solution e = Ok (underdamped_spec e) /\
  dict_get "case" (underdamped_spec e) = Some (Str "underdamped").
Proof.
  intros e.
  assert (Hz : zeta_spec e = 0.9999999995).
  { subst e. rewrite scenario_zeta. lra. }
  assert (Hm : 0 < m e) by (cbn; lra).
  assert (Hk : 0 < k e) by (cbn; lra).
  destruct (band_below_one_is_underdamped e Hm Hk) as [Hband Hrun].
  { rewrite Hz. lra. }
  repeat split; [exact Hz | exact Hband | exact Hrun].
Qed.

(** C2.  A parameter set with [k = 0] is valid ([m > 0], [k >= 0],
    [c >= 0]), yet [get_analytical_solution] raises [ZeroDivisionError] on
    it: the divisor [2 * sqrt(k * m)] of the damping ratio is zero. *)
Theorem analytical_raises_without_stiffness :
  let e := mkSpringEngine 1 0 0.5 9.81 1 "1D" 0.2 0 0 0 0 in
  0 < m e /\ 0 <= k e /\ 0 <= c e /\
  get_analytical_solution e = Raise ZeroDivisionError.
Proof.
  intros e. subst e. cbn [m k c].
  repeat split; try lra.
  apply analytical_zero_stiffness; cbn; lra.
Qed.

(** C3, as the specification words it, does not hold: there are invalid
    parameter sets whose construction raises nothing. *)
Lemma invalid_parameters_not_rejected :
  ~ (forall (m k c g L0 : R) (mode : string) (x y vx vy t : R),
        m <= 0 \/ k < 0 \/ c < 0 ->
        exists e, SpringEngine_init m k c g L0 mode x y vx vy t = Raise e).
Proof.
  intros H.
  destruct (H 0 (-1) (-1) 9.81 1 "1D"%string 0.2 0 0 0 0) as [e He].
  - left. lra.
  - discriminate He.
Qed.

(** C3, amended.  Construction and attribute update check nothing: every
    value of mass, stiffness and damping is stored as given, and nothing is
    raised.  A zero mass shows only later, when the first [step] divides by
    it. *)
Theorem parameters_stored_unchecked
    (m0 k0 c0 g0 len : R) (md : string) (x0 y0 vx0 vy0 t0 v dt : R) :
  let e := mkSpringEngine m0 k0 c0 g0 len md x0 y0 vx0 vy0 t0 in
  SpringEngine_init m0 k0 c0 g0 len md x0 y0 vx0 vy0 t0 = Ok e /\
  set_m v e = Ok (mkSpringEngine v k0 c0 g0 len md x0 y0 vx0 vy0 t0) /\
  set_k v e = Ok (mkSpringEngine m0 v c0 g0 len md x0 y0 vx0 vy0 t0) /\
  set_c v e = Ok (mkSpringEngine m0 k0 v g0 len md x0 y0 vx0 vy0 t0) /\
  step (mkSpringEngine 0 k0 c0 g0 len md x0 y0 vx0 vy0 t0) dt
    = Raise ZeroDivisionError.
Proof.
  cbv zeta. repeat split.
  apply step_zero_mass. reflexivity.
Qed.

(** C4.  In mode "1D" one step is the RK4 scheme on the state [(x, v)] with
    derivative [(v, a(x, v))], [a(x, v) = (-k x - c v) / m]: position is
    advanced with the velocities carried by the stages, velocity with the
    accelerations of the stages; [y] and [vy] stay and the clock moves by
    [dt]. *)
Theorem step_1d_is_rk4 (self : SpringEngine) (dt : R) :
  0 < m self -> mode self = "1D"%string ->
  let s' := rk4_spec (R * R) add2 scale2 (deriv_1d_spec self) (x self, vx self) dt in
  let self' := with_state self (fst s') (y self) (snd s') (vy self) (t self + dt) in
  step self dt = Ok (self', state_dict self').
Proof.
  intros Hm Hmode s' self'. unfold step. rewrite Hmode. cbn [String.eqb Ascii.eqb Bool.eqb].
  rewrite step_1d_rk4 by lra. reflexivity.
Qed.

Lemma step_1d_is_rk4_witness :
  0 < m test_engine /\ mode test_engine = "1D"%string /\
  exists self', step test_engine (1 / 120) = Ok (self', state_dict self').
Proof.
  split; [cbn; lra | split; [reflexivity |]].
  eexists. apply (step_1d_is_rk4 test_engine (1 / 120)); [cbn; lra | reflexivity].
Defined.

(** C5.  The force law of Vector mode at a point [(x, y, vx, vy)]: radius
    [r = hypot(x, y)], unit vector [(0, 1)] below [1e-9] and [(x/r, y/r)]
    otherwise, spring force [-k (r - L0)], damping [-c v_r] on the radial
    velocity only, and gravity added to the y acceleration as it is. *)
Theorem forces_follow_the_vector_law (self : SpringEngine) (x y vx vy : R) :
  0 < m self ->
  let r := math_hypot x y in
  let ux := if Rlt_dec r 1e-9 then 0 else x / r in
  let uy := if Rlt_dec r 1e-9 then 1 else y / r in
  let F_spring := - k self * (r - L0 self) in
  let v_r := vx * ux + vy * uy in
  let F_damp := - c self * v_r in
  forces self x y vx vy
    = Ok ((F_spring + F_damp) * ux / m self,
          ((F_spring + F_damp) * uy + m self * g self) / m self)
  /\ ((F_spring + F_damp) * uy + m self * g self) / m self
     = (F_spring + F_damp) * uy / m self + g self.
Proof.
  intros Hm r ux uy F_spring v_r F_damp. split.
  - rewrite forces_ok by lra.
    unfold forces_spec, unit_vector_spec. subst r ux uy F_spring v_r F_damp.
    destruct (Rlt_dec (math_hypot x y) 1e-9); reflexivity.
  - field. lra.
Qed.

Lemma forces_follow_the_vector_law_witness :
  0 < m default_engine /\
  forces default_engine 0 0 3 4 = Ok (0 / 1, ((- (10) * (0 - 1) + - (0.5) * 4) * 1 + 1 * 9.81) / 1).
Proof.
  split; [cbn; lra |].
  destruct (forces_follow_the_vector_law default_engine 0 0 3 4) as [H _];
    [cbn; lra |].
  rewrite H. rewrite math_hypot_origin. cbn [k c m g L0 default_engine].
  destruct (Rlt_dec 0 1e-9) as [_ | N]; [| exfalso; apply N; exact tiny_pos].
  f_equal. f_equal; field.
Defined.







(** C9.  In both modes a call to [step] with time step [dt] leaves the
    clock at [t + dt], in the engine and in the returned dictionary; hence
    [N] calls from [t = 0] leave it at [N dt] (as real numbers). *)
Theorem clock_advances_by_dt (self : SpringEngine) (dt : R) :
  0 < m self ->
  (exists self', step self dt = Ok (self', state_dict self') /\
                 t self' = t self + dt /\
                 dict_get "t" (state_dict self') = Some (Float (t self + dt))) /\
  (forall N : nat, t self = 0 ->
     exists selfN, run N self dt = Ok selfN /\ t selfN = INR N * dt).
Proof.
  intros Hm. split.
  - exists (step_value self dt). rewrite step_ok by lra.
    split; [reflexivity |]. split.
    + apply step_value_t.
    + cbn [state_dict dict_get String.eqb Ascii.eqb Bool.eqb].
      rewrite step_value_t. reflexivity.
  - intros N Ht0.
    destruct (run_clock N dt self) as [selfN [Hrun [_ [_ Ht]]]]; [lra |].
    exists selfN. split; [exact Hrun |]. rewrite Ht, Ht0. ring.
Qed.

Lemma clock_advances_by_dt_witness :
  0 < m test_engine /\
  exists self3, run 3 test_engine (1 / 120) = Ok self3 /\ t self3 = 3 * (1 / 120).
Proof.
  assert (Hm : 0 < m test_engine) by (cbn; lra).
  split; [exact Hm |].
  destruct (clock_advances_by_dt test_engine (1 / 120) Hm) as [_ Hrun].
  destruct (Hrun 3%nat eq_refl) as [self3 [H3 Ht]].
  exists self3. split; [exact H3 |].
  rewrite Ht. cbn [INR]. ring.
Defined.

(** C10.  Any mode string other than "1D" is Vector mode: [step] runs
    [_step_2d] and [get_analytical_solution] takes the radial initial
    conditions, exactly as with the string "VECTOR"; the dispatch itself
    raises nothing, so with a positive mass the step returns. *)
Theorem other_modes_are_vector (self : SpringEngine) (dt : R) :
  mode self <> "1D"%string ->
  step self dt = (self' <- _step_2d self dt ;; Ok (self', state_dict self')) /\
  step self dt
    = ('(self', d) <- step (set_mode "VECTOR" self) dt ;;
       Ok (set_mode (mode self) self', d)) /\
  get_analytical_solution self
    = get_analytical_solution (set_mode "VECTOR" self) /\
  x0_spec self = math_hypot (x self) (y self) /\
  (0 < m self -> exists r, step self dt = Ok r).
Proof.
  intros Hmode. apply String.eqb_neq in Hmode.
  assert (Hstep : step self dt
                  = (self' <- _step_2d self dt ;; Ok (self', state_dict self'))).
  { unfold step. rewrite Hmode. reflexivity. }
  split; [exact Hstep |]. split; [| split; [| split]].
  - rewrite Hstep. unfold step at 1.
    cbn [set_mode mode String.eqb Ascii.eqb Bool.eqb].
    rewrite step_2d_ignores_mode.
    destruct (_step_2d self dt) as [self' | e] eqn:E; cbn [bind]; [| reflexivity].
    apply step_2d_keeps_mode in E.
    change (set_mode (mode self) (set_mode "VECTOR" self'))
      with (set_mode (mode self) self').
    change (state_dict (set_mode "VECTOR" self')) with (state_dict self').
    rewrite <- E, set_mode_same. reflexivity.
  - symmetry. apply analytical_ignores_mode_name.
    rewrite Hmode. reflexivity.
  - unfold x0_spec. rewrite Hmode. reflexivity.
  - intros Hm. rewrite step_ok by lra. eexists. reflexivity.
Qed.

Lemma other_modes_are_vector_witness :
  mode polar_engine <> "1D"%string /\
  get_analytical_solution polar_engine
    = get_analytical_solution (set_mode "VECTOR" polar_engine) /\
  x0_spec polar_engine = 5 /\
  exists r, step polar_engine (1 / 120) = Ok r.
Proof.
  assert (Hmode : mode polar_engine <> "1D"%string) by (cbn; discriminate).
  destruct (other_modes_are_vector polar_engine (1 / 120) Hmode)
    as [_ [_ [Hana [Hx0 Hret]]]].
  split; [exact Hmode |]. split; [exact Hana |]. split.
  - rewrite Hx0. exact math_hypot_3_4.
  - apply Hret. cbn. lra.
Defined.

(** * Further properties of the engine *)

(** ** Invariants of repeated stepping *)

(** A property that every successful step hands on, and that keeps the
    mass away from zero, holds after any number of calls, all of which
    return. *)
Lemma run_invariant (P : SpringEngine -> Prop) (dt : R) :
  (forall s, P s -> m s <> 0 /\ P (step_value s dt)) ->
  forall (n : nat) (s : SpringEngine), P s ->
  exists s', run n s dt = Ok s' /\ P s'.
Proof.
  intros Hstep. induction n as [| n IH]; intros s Hs.
  - exists s. split; [reflexivity | exact Hs].
  - destruct (Hstep s Hs) as [Hm Hnext].
    cbn [run]. rewrite step_ok by exact Hm. cbn [bind].
    exact (IH _ Hnext).
Qed.

Lemma step_value_same_parameters (self : SpringEngine) (dt : R) :
  same_parameters (step_value self dt) self.
Proof.
  unfold same_parameters. rewrite step_value_m.
  destruct (step_value_params self dt) as [Hk [Hc [Hg [HL Hmode]]]].
  repeat split; assumption.
Qed.

Lemma step_value_1d (self : SpringEngine) (dt : R) :
  mode self = "1D"%string ->
  step_value self dt
  = let s' := rk4_spec (R * R) add2 scale2 (deriv_1d_spec self) (x self, vx self) dt in
    with_state self (fst s') (y self) (snd s') (vy self) (t self + dt).
Proof. intros Hmode. unfold step_value. rewrite Hmode. reflexivity. Qed.

Lemma step_value_2d (self : SpringEngine) (dt : R) :
  mode self <> "1D"%string -> step_value self dt = step_2d_value self dt.
Proof.
  intros Hmode. apply String.eqb_neq in Hmode.
  unfold step_value. rewrite Hmode. reflexivity.
Qed.

(** X1.  [step] raises exactly when the mass is zero, and then it is
    [ZeroDivisionError]; with any other mass, negative ones included, it
    returns, whatever the state, the other parameters and [dt]. *)
Theorem step_raises_iff_zero_mass (self : SpringEngine) (dt : R) :
  (step self dt = Raise ZeroDivisionError <-> m self = 0) /\
  ((exists r, step self dt = Ok r) <-> m self <> 0) /\
  step self dt <> Raise ValueError.
Proof.
  destruct (Req_dec_T (m self) 0) as [Hz | Hnz].
  - pose proof (step_zero_mass self dt Hz) as Hraise. repeat split.
    + intros _. exact Hz.
    + intros _. exact Hraise.
    + intros [r Hr]. rewrite Hraise in Hr. discriminate Hr.
    + intros Hm. contradiction.
    + rewrite Hraise. discriminate.
  - pose proof (step_ok self dt Hnz) as Hok. repeat split.
    + intros Hr. rewrite Hok in Hr. discriminate Hr.
    + intros Hm. contradiction.
    + intros _. exact Hnz.
    + intros _. eexists. exact Hok.
    + rewrite Hok. discriminate.
Qed.

(** X2.  Stepping never touches the parameters: after any number of calls
    mass, stiffness, damping, gravity, natural length and mode are what
    they were, and the calls all return when the mass is not zero. *)
Theorem run_keeps_parameters (n : nat) (self : SpringEngine) (dt : R) :
  m self <> 0 ->
  exists self', run n self dt = Ok self' /\ same_parameters self' self.
Proof.
  intros Hm.
  apply (run_invariant (fun s => same_parameters s self) dt).
  - intros s Hs. split.
    + destruct Hs as [Hms _]. rewrite Hms. exact Hm.
    + pose proof (step_value_same_parameters s dt) as Hnext.
      unfold same_parameters in *.
      destruct Hs as [H1 [H2 [H3 [H4 [H5 H6]]]]].
      destruct Hnext as [N1 [N2 [N3 [N4 [N5 N6]]]]].
      repeat split; congruence.
  - unfold same_parameters. repeat split.
Qed.

Lemma run_keeps_parameters_witness :
  m polar_engine <> 0 /\
  exists self', run 5 polar_engine (1 / 120) = Ok self' /\
                m self' = 1 /\ mode self' = "POLAR"%string.
Proof.
  assert (Hm : m polar_engine <> 0) by (cbn; lra).
  split; [exact Hm |].
  destruct (run_keeps_parameters 5 polar_engine (1 / 120) Hm)
    as [self' [Hrun [H1 [_ [_ [_ [_ H6]]]]]]].
  exists self'. split; [exact Hrun |]. split; [exact H1 | exact H6].
Defined.

(** X3.  In mode "1D" the vertical coordinates are never written: any
    number of steps leaves [y] and [vy] as they were. *)
Theorem run_1d_keeps_vertical (n : nat) (self : SpringEngine) (dt : R) :
  m self <> 0 -> mode self = "1D"%string ->
  exists self', run n self dt = Ok self' /\ y self' = y self /\ vy self' = vy self.
Proof.
  intros Hm Hmode.
  destruct (run_invariant
              (fun s => m s <> 0 /\ mode s = "1D"%string /\
                        y s = y self /\ vy s = vy self) dt) with (n := n) (s := self)
    as [self' [Hrun [_ [_ [Hy Hvy]]]]].
  - intros s [Hms [Hmodes [Hys Hvys]]]. split; [exact Hms |].
    rewrite step_value_m. split; [exact Hms |].
    destruct (step_value_params s dt) as [_ [_ [_ [_ Hmode']]]].
    split; [congruence |].
    rewrite (step_value_1d s dt Hmodes). cbn. split; assumption.
  - repeat split; assumption.
  - exists self'. repeat split; assumption.
Qed.

Lemma run_1d_keeps_vertical_witness :
  (m test_engine <> 0 /\ mode test_engine = "1D"%string) /\
  exists self', run 3 test_engine (1 / 120) = Ok self' /\ y self' = 0 /\ vy self' = 0.
Proof.
  assert (Hm : m test_engine <> 0) by (cbn; lra).
  split; [split; [exact Hm | reflexivity] |].
  exact (run_1d_keeps_vertical 3 test_engine (1 / 120) Hm eq_refl).
Defined.

(** ** The one-dimensional integrator *)

(** The coordinates a one-dimensional step computes, as polynomials in
    [dt]: the derivatives of the motion are [v], [a0 = a(x, v)],
    [a1 = a(v, a0)], [a2 = a(a0, a1)] and [a3 = a(a1, a2)]. *)
Lemma rk4_1d_expansion (self : SpringEngine) (dt : R) :
  m self <> 0 ->
  let a0 := accel_spec self (x self) (vx self) in
  let a1 := accel_spec self (vx self) a0 in
  let a2 := accel_spec self a0 a1 in
  let a3 := accel_spec self a1 a2 in
  rk4_spec (R * R) add2 scale2 (deriv_1d_spec self) (x self, vx self) dt
  = (x self + dt * vx self + dt ^ 2 / 2 * a0 + dt ^ 3 / 6 * a1 + dt ^ 4 / 24 * a2,
     vx self + dt * a0 + dt ^ 2 / 2 * a1 + dt ^ 3 / 6 * a2 + dt ^ 4 / 24 * a3).
Proof.
  intros Hm a0 a1 a2 a3. subst a0 a1 a2 a3.
  unfold rk4_spec, deriv_1d_spec, add2, scale2, accel_spec. cbn [fst snd].
  f_equal; field; exact Hm.
Qed.

(** X4.  On the linear oscillator one RK4 step is the Taylor polynomial of
    degree four of the motion: position and velocity advance by the first
    four derivatives at the start of the step, weighted [dt^n / n!]. *)
Theorem step_1d_is_taylor_4 (self : SpringEngine) (dt : R) :
  m self <> 0 -> mode self = "1D"%string ->
  let a0 := accel_spec self (x self) (vx self) in
  let a1 := accel_spec self (vx self) a0 in
  let a2 := accel_spec self a0 a1 in
  let a3 := accel_spec self a1 a2 in
  let self' :=
    with_state self
      (x self + dt * vx self + dt ^ 2 / 2 * a0 + dt ^ 3 / 6 * a1 + dt ^ 4 / 24 * a2)
      (y self)
      (vx self + dt * a0 + dt ^ 2 / 2 * a1 + dt ^ 3 / 6 * a2 + dt ^ 4 / 24 * a3)
      (vy self)
      (t self + dt) in
  step self dt = Ok (self', state_dict self').
Proof.
  intros Hm Hmode a0 a1 a2 a3 self'.
  rewrite step_ok by exact Hm. rewrite (step_value_1d self dt Hmode).
  cbv zeta. rewrite (rk4_1d_expansion self dt Hm). reflexivity.
Qed.

Lemma step_1d_is_taylor_4_witness :
  (m test_engine <> 0 /\ mode test_engine = "1D"%string) /\
  exists self', step test_engine 1 = Ok (self', state_dict self') /\
                x self' = 0.2 - 0.4 + 0.2 * (0.2 * 4) / 6 + 0.2 * (16 - 0.04 * 4) / 24.
Proof.
  assert (Hm : m test_engine <> 0) by (cbn; lra).
  split; [split; [exact Hm | reflexivity] |].
  eexists. split.
  - exact (step_1d_is_taylor_4 test_engine 1 Hm eq_refl).
  - unfold accel_spec. cbn [x with_state k c m vx test_engine]. lra.
Defined.

(** X5.  A one-dimensional engine at rest at the equilibrium stays there:
    from [x = 0], [vx = 0] any number of steps of any size returns
    [x = 0], [vx = 0]. *)
Theorem rest_1d_is_fixed (n : nat) (self : SpringEngine) (dt : R) :
  m self <> 0 -> mode self = "1D"%string -> x self = 0 -> vx self = 0 ->
  exists self', run n self dt = Ok self' /\ x self' = 0 /\ vx self' = 0.
Proof.
  intros Hm Hmode Hx Hvx.
  destruct (run_invariant
              (fun s => m s <> 0 /\ mode s = "1D"%string /\ x s = 0 /\ vx s = 0) dt)
    with (n := n) (s := self) as [self' [Hrun [_ [_ [Hx' Hvx']]]]].
  - intros s [Hms [Hmodes [Hxs Hvxs]]]. split; [exact Hms |].
    rewrite step_value_m. split; [exact Hms |].
    destruct (step_value_params s dt) as [_ [_ [_ [_ Hmode']]]].
    split; [congruence |].
    rewrite (step_value_1d s dt Hmodes). cbv zeta.
    rewrite (rk4_1d_expansion s dt Hms). cbn [x vx with_state fst snd].
    unfold accel_spec. rewrite Hxs, Hvxs. split; field; exact Hms.
  - repeat split; assumption.
  - exists self'. repeat split; assumption.
Qed.

Lemma rest_1d_is_fixed_witness :
  let e := mkSpringEngine 1 4 0.2 9.81 1 "1D" 0 0 0 0 0 in
  (m e <> 0 /\ mode e = "1D"%string /\ x e = 0 /\ vx e = 0) /\
  exists self', run 3 e (1 / 120) = Ok self' /\ x self' = 0 /\ vx self' = 0.
Proof.
  intros e.
  assert (Hm : m e <> 0) by (cbn; lra).
  split; [repeat split; exact Hm |].
  exact (rest_1d_is_fixed 3 e (1 / 120) Hm eq_refl eq_refl eq_refl).
Defined.

(** The acceleration is linear in position and velocity. *)
Lemma accel_spec_linear (self : SpringEngine) (a b p1 q1 p2 q2 : R) :
  m self <> 0 ->
  accel_spec self (a * p1 + b * p2) (a * q1 + b * q2)
  = a * accel_spec self p1 q1 + b * accel_spec self p2 q2.
Proof. intros Hm. unfold accel_spec. field. exact Hm. Qed.

(** X6.  The one-dimensional step is linear in the state: on a combination
    [a * (x1, v1) + b * (x2, v2)] of two states it returns the same
    combination of what it returns on each. *)
Theorem step_1d_is_linear (self : SpringEngine) (a b x1 v1 x2 v2 dt : R) :
  m self <> 0 -> mode self = "1D"%string ->
  let at_state := fun p q => with_state self p (y self) q (vy self) (t self) in
  exists s1 s2 s12,
    step (at_state x1 v1) dt = Ok (s1, state_dict s1) /\
    step (at_state x2 v2) dt = Ok (s2, state_dict s2) /\
    step (at_state (a * x1 + b * x2) (a * v1 + b * v2)) dt = Ok (s12, state_dict s12) /\
    x s12 = a * x s1 + b * x s2 /\
    vx s12 = a * vx s1 + b * vx s2.
Proof.
  intros Hm Hmode at_state. subst at_state.
  assert (Hrun : forall p q,
             step (with_state self p (y self) q (vy self) (t self)) dt
             = Ok (step_value (with_state self p (y self) q (vy self) (t self)) dt,
                   state_dict
                     (step_value (with_state self p (y self) q (vy self) (t self)) dt))).
  { intros p q. apply step_ok. exact Hm. }
  do 3 eexists. split; [apply Hrun | split; [apply Hrun | split; [apply Hrun |]]].
  rewrite !step_value_1d by exact Hmode. cbv zeta.
  rewrite !rk4_1d_expansion by exact Hm.
  cbn [x vx fst snd with_state].
  change (accel_spec (with_state self x1 (y self) v1 (vy self) (t self)))
    with (accel_spec self).
  change (accel_spec (with_state self x2 (y self) v2 (vy self) (t self)))
    with (accel_spec self).
  change (accel_spec (with_state self (a * x1 + b * x2) (y self)
                        (a * v1 + b * v2) (vy self) (t self)))
    with (accel_spec self).
  rewrite !accel_spec_linear by exact Hm.
  split; ring.
Qed.

Lemma step_1d_is_linear_witness :
  (m test_engine <> 0 /\ mode test_engine = "1D"%string) /\
  exists s1 s2 s12,
    step (with_state test_engine 1 0 0 0 0) (1 / 120) = Ok (s1, state_dict s1) /\
    step (with_state test_engine 0 0 1 0 0) (1 / 120) = Ok (s2, state_dict s2) /\
    step (with_state test_engine (2 * 1 + 3 * 0) 0 (2 * 0 + 3 * 1) 0 0) (1 / 120)
      = Ok (s12, state_dict s12) /\
    x s12 = 2 * x s1 + 3 * x s2 /\ vx s12 = 2 * vx s1 + 3 * vx s2.
Proof.
  assert (Hm : m test_engine <> 0) by (cbn; lra).
  split; [split; [exact Hm | reflexivity] |].
  exact (step_1d_is_linear test_engine 2 3 1 0 0 1 (1 / 120) Hm eq_refl).
Defined.

(** Without damping the acceleration is [-(k/m) x]. *)
Lemma accel_spec_undamped (self : SpringEngine) (p q : R) :
  m self <> 0 -> c self = 0 -> accel_spec self p q = - (k self / m self) * p.
Proof. intros Hm Hc. unfold accel_spec. rewrite Hc. field. exact Hm. Qed.

(** One undamped step scales the energy by the factor. *)
Lemma undamped_step_energy (self : SpringEngine) (dt : R) :
  m self <> 0 -> c self = 0 -> mode self = "1D"%string ->
  energy (step_value self dt) = energy self * undamped_energy_factor self dt.
Proof.
  intros Hm Hc Hmode. rewrite (step_value_1d self dt Hmode). cbv zeta.
  rewrite (rk4_1d_expansion self dt Hm).
  rewrite !(accel_spec_undamped self) by assumption.
  unfold energy, undamped_energy_factor. cbv zeta.
  cbn [x vx fst snd m k with_state].
  replace (k self * dt ^ 2 / m self) with (k self / m self * dt ^ 2)
    by (field; exact Hm).
  set (w := k self / m self).
  assert (Hkw : k self = m self * w) by (unfold w; field; exact Hm).
  rewrite Hkw. field.
Qed.

Lemma undamped_energy_factor_same (a b : SpringEngine) (dt : R) :
  same_parameters a b -> undamped_energy_factor a dt = undamped_energy_factor b dt.
Proof.
  intros [Hm [Hk _]]. unfold undamped_energy_factor. rewrite Hm, Hk. reflexivity.
Qed.

Lemma run_undamped_energy (n : nat) (dt : R) :
  forall self, m self <> 0 -> c self = 0 -> mode self = "1D"%string ->
  exists self', run n self dt = Ok self' /\
                energy self' = energy self * undamped_energy_factor self dt ^ n.
Proof.
  induction n as [| n IH]; intros self Hm Hc Hmode.
  - exists self. split; [reflexivity | cbn [pow]; ring].
  - cbn [run]. rewrite step_ok by exact Hm. cbn [bind].
    pose proof (step_value_same_parameters self dt) as Hsame.
    destruct Hsame as [Hm' [Hk' [Hc' [Hg' [HL' Hmode']]]]].
    destruct (IH (step_value self dt)) as [self' [Hrun He]];
      [congruence | congruence | congruence |].
    exists self'. split; [exact Hrun |].
    rewrite He, undamped_step_energy by assumption.
    rewrite (undamped_energy_factor_same (step_value self dt) self dt)
      by (repeat split; assumption).
    cbn [pow]. ring.
Qed.

(** Within [k dt^2 <= 8 m] the factor lies between zero and one. *)
Lemma undamped_energy_factor_bounds (self : SpringEngine) (dt : R) :
  0 < m self -> 0 <= k self -> k self * dt ^ 2 <= 8 * m self ->
  0 <= undamped_energy_factor self dt <= 1.
Proof.
  intros Hm Hk Hdt. unfold undamped_energy_factor. cbv zeta.
  set (z := k self * dt ^ 2 / m self).
  assert (Hz0 : 0 <= z).
  { unfold z. apply Rmult_le_pos; [| apply Rlt_le, Rinv_0_lt_compat, Hm].
    apply Rmult_le_pos; [exact Hk | apply pow2_ge_0]. }
  assert (Hz8 : z <= 8).
  { unfold z. apply Rmult_le_reg_r with (r := m self); [exact Hm |].
    replace (k self * dt ^ 2 / m self * m self) with (k self * dt ^ 2)
      by (field; lra).
    exact Hdt. }
  assert (Hz3 : 0 <= z ^ 3) by (apply pow_le; exact Hz0).
  split.
  - replace (1 - z ^ 3 / 72 + z ^ 4 / 576)
      with ((1 - z / 2 + z ^ 2 / 24) ^ 2 + z * (1 - z / 6) ^ 2) by field.
    apply Rplus_le_le_0_compat; [apply pow2_ge_0 |].
    apply Rmult_le_pos; [exact Hz0 | apply pow2_ge_0].
  - replace (1 - z ^ 3 / 72 + z ^ 4 / 576) with (1 - z ^ 3 * (8 - z) / 576) by field.
    assert (0 <= z ^ 3 * (8 - z)) by (apply Rmult_le_pos; lra).
    lra.
Qed.

(** X7.  Without damping, [n] one-dimensional steps multiply the energy
    [m v^2/2 + k x^2/2] by [(1 - z^3/72 + z^4/576)^n] with [z = k dt^2/m]:
    RK4 does not conserve it.  Within the bound [k dt^2 <= 8 m] the energy
    never grows. *)
Theorem undamped_energy_after_run (n : nat) (self : SpringEngine) (dt : R) :
  m self <> 0 -> c self = 0 -> mode self = "1D"%string ->
  exists self', run n self dt = Ok self' /\
    energy self' = energy self * undamped_energy_factor self dt ^ n /\
    (0 < m self -> 0 <= k self -> k self * dt ^ 2 <= 8 * m self ->
     0 <= energy self' <= energy self).
Proof.
  intros Hm Hc Hmode.
  destruct (run_undamped_energy n dt self Hm Hc Hmode) as [self' [Hrun He]].
  exists self'. split; [exact Hrun |]. split; [exact He |].
  intros Hpos Hk Hdt. rewrite He.
  destruct (undamped_energy_factor_bounds self dt Hpos Hk Hdt) as [Hf0 Hf1].
  assert (HE : 0 <= energy self).
  { unfold energy.
    assert (0 <= m self * vx self ^ 2)
      by (apply Rmult_le_pos; [lra | apply pow2_ge_0]).
    assert (0 <= k self * x self ^ 2)
      by (apply Rmult_le_pos; [lra | apply pow2_ge_0]).
    lra. }
  assert (Hp0 : 0 <= undamped_energy_factor self dt ^ n) by (apply pow_le; exact Hf0).
  assert (Hp1 : undamped_energy_factor self dt ^ n <= 1).
  { rewrite <- (pow1 n). apply pow_incr. split; assumption. }
  split.
  - apply Rmult_le_pos; assumption.
  - rewrite <- (Rmult_1_r (energy self)) at 2.
    apply Rmult_le_compat_l; assumption.
Qed.

Lemma undamped_energy_after_run_witness :
  let e := scenario_engine 0 in
  (m e <> 0 /\ c e = 0 /\ mode e = "1D"%string) /\
  exists self', run 1000 e (1 / 120) = Ok self' /\ 0 <= energy self' <= energy e.
Proof.
  intros e.
  assert (Hm : m e <> 0) by (cbn; lra).
  split; [repeat split; exact Hm |].
  destruct (undamped_energy_after_run 1000 e (1 / 120) Hm eq_refl eq_refl)
    as [self' [Hrun [_ Hle]]].
  exists self'. split; [exact Hrun |].
  apply Hle; cbn; lra.
Defined.

(** ** The vector integrator *)

Lemma math_hypot_axis (y : R) : 0 <= y -> math_hypot 0 y = y.
Proof.
  intros Hy. unfold math_hypot. replace (0 * 0 + y * y) with (y * y) by ring.
  apply sqrt_square. exact Hy.
Qed.

Lemma math_hypot_mirror (x y : R) : math_hypot (- x) y = math_hypot x y.
Proof. unfold math_hypot. f_equal. ring. Qed.

(** On the upper half of the vertical axis the unit vector is [(0, 1)],
    with or without the fallback. *)
Lemma unit_vector_axis (y : R) : 0 <= y -> unit_vector_spec 0 y = (0, 1).
Proof.
  intros Hy. unfold unit_vector_spec. rewrite (math_hypot_axis y Hy).
  destruct (Rlt_dec y 1e-9) as [Hr | Hr]; [reflexivity |].
  pose proof (radius_divisor y Hr) as Hnz. f_equal; field; exact Hnz.
Qed.

(** Without spring and damper only gravity is left. *)
Lemma forces_spec_free_fall (self : SpringEngine) (x y vx vy : R) :
  m self <> 0 -> k self = 0 -> c self = 0 ->
  forces_spec self x y vx vy = (0, g self).
Proof.
  intros Hm Hk Hc. unfold forces_spec.
  destruct (unit_vector_spec x y) as [ux uy]. rewrite Hk, Hc.
  f_equal; field; exact Hm.
Qed.

(** On the vertical axis there is no horizontal acceleration. *)
Lemma forces_spec_axis (self : SpringEngine) (x y vx vy : R) :
  x = 0 -> fst (forces_spec self x y vx vy) = 0.
Proof.
  intros Hx. unfold forces_spec, unit_vector_spec. rewrite Hx.
  destruct (Rlt_dec (math_hypot 0 y) 1e-9); cbn [fst]; unfold Rdiv; ring.
Qed.

(** Hanging at rest where the spring carries the weight, nothing
    accelerates. *)
Lemma forces_spec_hanging (self : SpringEngine) (x y vx vy : R) :
  m self <> 0 -> k self <> 0 ->
  x = 0 -> vx = 0 -> vy = 0 -> y = L0 self + m self * g self / k self -> 0 <= y ->
  forces_spec self x y vx vy = (0, 0).
Proof.
  intros Hm Hk Hx Hvx Hvy Hy Hpos. unfold forces_spec.
  rewrite Hx, (unit_vector_axis y Hpos), (math_hypot_axis y Hpos), Hvx, Hvy, Hy.
  f_equal; field; auto.
Qed.

(** Mirroring position and velocity in the vertical axis mirrors the
    acceleration. *)
Lemma forces_spec_mirror (self : SpringEngine) (x1 x y vx1 vx vy : R) :
  x1 = - x -> vx1 = - vx ->
  forces_spec self x1 y vx1 vy
  = (- fst (forces_spec self x y vx vy), snd (forces_spec self x y vx vy)).
Proof.
  intros -> ->. unfold forces_spec, unit_vector_spec.
  rewrite math_hypot_mirror.
  destruct (Rlt_dec (math_hypot x y) 1e-9); cbn [fst snd]; f_equal;
    unfold Rdiv; ring.
Qed.

(** X8.  With no spring and no damper (k = 0, c = 0) a vector step is
    exact free fall: [x] moves uniformly, [vy] gains [g dt] and [y] gains
    [vy dt + g dt^2 / 2]; positive gravity pulls towards growing [y]. *)
Theorem free_fall_step (self : SpringEngine) (dt : R) :
  m self <> 0 -> mode self <> "1D"%string -> k self = 0 -> c self = 0 ->
  let self' :=
    with_state self
      (x self + vx self * dt)
      (y self + vy self * dt + g self * dt ^ 2 / 2)
      (vx self)
      (vy self + g self * dt)
      (t self + dt) in
  step self dt = Ok (self', state_dict self').
Proof.
  intros Hm Hmode Hk Hc self'.
  rewrite step_ok by exact Hm. rewrite (step_value_2d self dt Hmode).
  assert (E : step_2d_value self dt = self').
  { unfold step_2d_value. cbv zeta.
    rewrite !(forces_spec_free_fall self) by assumption.
    cbn [fst snd]. subst self'. unfold with_state. f_equal; field. }
  rewrite E. reflexivity.
Qed.

Lemma free_fall_step_witness :
  let e := mkSpringEngine 2 0 0 9.81 1 "VECTOR" 1 2 3 0 0 in
  (m e <> 0 /\ mode e <> "1D"%string /\ k e = 0 /\ c e = 0) /\
  exists self', step e 1 = Ok (self', state_dict self') /\
                x self' = 4 /\ y self' = 2 + 9.81 / 2 /\ vx self' = 3 /\
                vy self' = 9.81.
Proof.
  intros e.
  assert (Hm : m e <> 0) by (cbn; lra).
  assert (Hmode : mode e <> "1D"%string) by (cbn; discriminate).
  split; [repeat split; assumption |].
  eexists. split; [exact (free_fall_step e 1 Hm Hmode eq_refl eq_refl) |].
  cbn [x y vx vy g with_state e]. repeat split; lra.
Defined.

(** A vector step from the vertical axis, without horizontal velocity,
    ends on the axis without horizontal velocity. *)
Lemma step_2d_value_axis (self : SpringEngine) (dt : R) :
  x self = 0 -> vx self = 0 ->
  x (step_2d_value self dt) = 0 /\ vx (step_2d_value self dt) = 0.
Proof.
  intros Hx Hvx. unfold step_2d_value. cbv zeta. cbn [x vx with_state].
  set (a1 := forces_spec self (x self) (y self) (vx self) (vy self)).
  assert (H1 : fst a1 = 0) by (apply forces_spec_axis; exact Hx).
  set (a2 := forces_spec self (x self + vx self * dt / 2) _ _ _).
  assert (H2 : fst a2 = 0).
  { apply forces_spec_axis. rewrite Hx, Hvx. field. }
  set (a3 := forces_spec self (x self + (vx self + fst a1 * dt / 2) * dt / 2) _ _ _).
  assert (H3 : fst a3 = 0).
  { apply forces_spec_axis. rewrite Hx, Hvx, H1. field. }
  set (a4 := forces_spec self (x self + (vx self + fst a2 * dt / 2) * dt) _ _ _).
  assert (H4 : fst a4 = 0).
  { apply forces_spec_axis. rewrite Hx, Hvx, H2. field. }
  rewrite Hx, Hvx, H1, H2, H3, H4. split; field.
Qed.

(** X9.  The vector motion that starts on the vertical axis with no
    horizontal velocity stays on it: after any number of steps [x = 0] and
    [vx = 0], wherever the degenerate-radius fallback was taken on the
    way. *)
Theorem vertical_motion_stays_vertical (n : nat) (self : SpringEngine) (dt : R) :
  m self <> 0 -> mode self <> "1D"%string -> x self = 0 -> vx self = 0 ->
  exists self', run n self dt = Ok self' /\ x self' = 0 /\ vx self' = 0.
Proof.
  intros Hm Hmode Hx Hvx.
  destruct (run_invariant
              (fun s => m s <> 0 /\ mode s <> "1D"%string /\ x s = 0 /\ vx s = 0) dt)
    with (n := n) (s := self) as [self' [Hrun [_ [_ [Hx' Hvx']]]]].
  - intros s [Hms [Hmodes [Hxs Hvxs]]]. split; [exact Hms |].
    rewrite step_value_m. split; [exact Hms |].
    destruct (step_value_params s dt) as [_ [_ [_ [_ Hmode']]]].
    split; [congruence |].
    rewrite (step_value_2d s dt Hmodes).
    exact (step_2d_value_axis s dt Hxs Hvxs).
  - repeat split; assumption.
  - exists self'. repeat split; assumption.
Qed.

Lemma vertical_motion_stays_vertical_witness :
  (m origin_engine <> 0 /\ mode origin_engine <> "1D"%string) /\
  let e := with_state origin_engine 0 0 0 4 0 in
  exists self', run 10 e (1 / 120) = Ok self' /\ x self' = 0 /\ vx self' = 0.
Proof.
  assert (Hm : m origin_engine <> 0) by (cbn; lra).
  assert (Hmode : mode origin_engine <> "1D"%string) by (cbn; discriminate).
  split; [split; assumption |].
  exact (vertical_motion_stays_vertical 10 (with_state origin_engine 0 0 0 4 0)
           (1 / 120) Hm Hmode eq_refl eq_refl).
Defined.

(** One step from the hanging rest position changes no coordinate. *)
Lemma step_2d_value_hanging (self : SpringEngine) (dt : R) :
  m self <> 0 -> k self <> 0 ->
  x self = 0 -> vx self = 0 -> vy self = 0 ->
  y self = L0 self + m self * g self / k self -> 0 <= y self ->
  step_2d_value self dt
  = with_state self (x self) (y self) (vx self) (vy self) (t self + dt).
Proof.
  intros Hm Hk Hx Hvx Hvy Hy Hpos. unfold step_2d_value. cbv zeta.
  assert (Hrest : forall x1 y1 vx1 vy1,
             x1 = 0 -> y1 = y self -> vx1 = 0 -> vy1 = 0 ->
             forces_spec self x1 y1 vx1 vy1 = (0, 0)).
  { intros x1 y1 vx1 vy1 E1 E2 E3 E4.
    apply forces_spec_hanging; try assumption; rewrite E2; assumption. }
  rewrite (Hrest (x self) (y self) (vx self) (vy self)) by auto.
  cbn [fst snd].
  rewrite (Hrest (x self + vx self * dt / 2) (y self + vy self * dt / 2))
    by (rewrite ?Hx, ?Hvx, ?Hvy; field).
  cbn [fst snd].
  rewrite (Hrest (x self + (vx self + 0 * dt / 2) * dt / 2)
             (y self + (vy self + 0 * dt / 2) * dt / 2))
    by (rewrite ?Hx, ?Hvx, ?Hvy; field).
  cbn [fst snd].
  rewrite (Hrest (x self + (vx self + 0 * dt / 2) * dt)
             (y self + (vy self + 0 * dt / 2) * dt))
    by (rewrite ?Hx, ?Hvx, ?Hvy; field).
  cbn [fst snd]. unfold with_state. rewrite Hvx, Hvy. f_equal; field.
Qed.

(** X10.  The hanging rest position is kept: a vector engine at rest at
    [x = 0], [y = L0 + m g / k], where the spring carries the weight, has
    the same position and zero velocity after any number of steps. *)
Theorem hanging_rest_is_fixed (n : nat) (self : SpringEngine) (dt : R) :
  m self <> 0 -> k self <> 0 -> mode self <> "1D"%string ->
  x self = 0 -> vx self = 0 -> vy self = 0 ->
  y self = L0 self + m self * g self / k self -> 0 <= y self ->
  exists self', run n self dt = Ok self' /\
                x self' = 0 /\ y self' = y self /\ vx self' = 0 /\ vy self' = 0.
Proof.
  intros Hm Hk Hmode Hx Hvx Hvy Hy Hpos.
  destruct (run_invariant
              (fun s => same_parameters s self /\
                        x s = 0 /\ y s = y self /\ vx s = 0 /\ vy s = 0) dt)
    with (n := n) (s := self) as [self' [Hrun [_ Hstate]]].
  - intros s [Hsame [Hxs [Hys [Hvxs Hvys]]]].
    pose proof Hsame as [Hms [Hks [_ [Hgs [HLs Hmodes]]]]].
    assert (Hm' : m s <> 0) by congruence.
    split; [exact Hm' |].
    assert (Hmode' : mode s <> "1D"%string) by congruence.
    rewrite (step_value_2d s dt Hmode').
    assert (Hk' : k s <> 0) by congruence.
    assert (Hy' : y s = L0 s + m s * g s / k s).
    { rewrite Hys, Hms, Hks, Hgs, HLs. exact Hy. }
    assert (Hpos' : 0 <= y s) by (rewrite Hys; exact Hpos).
    rewrite (step_2d_value_hanging s dt Hm' Hk' Hxs Hvxs Hvys Hy' Hpos').
    split; [| cbn [x y vx vy with_state]; auto].
    unfold same_parameters, with_state. cbn [m k c g L0 mode]. exact Hsame.
  - split; [unfold same_parameters; repeat split | auto].
  - exists self'. split; [exact Hrun | exact Hstate].
Qed.

Lemma hanging_rest_is_fixed_witness :
  let e := mkSpringEngine 1 10 0.5 9.81 1 "VECTOR" 0 1.981 0 0 0 in
  (m e <> 0 /\ k e <> 0 /\ mode e <> "1D"%string /\
   y e = L0 e + m e * g e / k e /\ 0 <= y e) /\
  exists self', run 120 e (1 / 120) = Ok self' /\
                x self' = 0 /\ y self' = 1.981 /\ vx self' = 0 /\ vy self' = 0.
Proof.
  intros e.
  assert (Hm : m e <> 0) by (cbn; lra).
  assert (Hk : k e <> 0) by (cbn; lra).
  assert (Hmode : mode e <> "1D"%string) by (cbn; discriminate).
  assert (Hy : y e = L0 e + m e * g e / k e) by (cbn; lra).
  assert (Hpos : 0 <= y e) by (cbn; lra).
  split; [repeat split; assumption |].
  exact (hanging_rest_is_fixed 120 e (1 / 120) Hm Hk Hmode
           eq_refl eq_refl eq_refl Hy Hpos).
Defined.

Lemma step_2d_value_mirror (self : SpringEngine) (dt : R) :
  step_2d_value (mirror_x self) dt = mirror_x (step_2d_value self dt).
Proof.
  unfold step_2d_value. cbv zeta.
  change (forces_spec (mirror_x self)) with (forces_spec self).
  cbn [x y vx vy t mirror_x].
  set (a1 := forces_spec self (x self) (y self) (vx self) (vy self)).
  rewrite (forces_spec_mirror self (- x self) (x self) (y self) (- vx self) (vx self))
    by reflexivity.
  fold a1. cbn [fst snd].
  set (a2 := forces_spec self (x self + vx self * dt / 2) (y self + vy self * dt / 2)
               (vx self + fst a1 * dt / 2) (vy self + snd a1 * dt / 2)).
  rewrite (forces_spec_mirror self (- x self + - vx self * dt / 2)
             (x self + vx self * dt / 2) _ (- vx self + - fst a1 * dt / 2)
             (vx self + fst a1 * dt / 2)) by field.
  fold a2. cbn [fst snd].
  set (a3 := forces_spec self (x self + (vx self + fst a1 * dt / 2) * dt / 2)
               (y self + (vy self + snd a1 * dt / 2) * dt / 2)
               (vx self + fst a2 * dt / 2) (vy self + snd a2 * dt / 2)).
  rewrite (forces_spec_mirror self
             (- x self + (- vx self + - fst a1 * dt / 2) * dt / 2)
             (x self + (vx self + fst a1 * dt / 2) * dt / 2) _
             (- vx self + - fst a2 * dt / 2)
             (vx self + fst a2 * dt / 2)) by field.
  fold a3. cbn [fst snd].
  set (a4 := forces_spec self (x self + (vx self + fst a2 * dt / 2) * dt)
               (y self + (vy self + snd a2 * dt / 2) * dt)
               (vx self + fst a3 * dt) (vy self + snd a3 * dt)).
  rewrite (forces_spec_mirror self
             (- x self + (- vx self + - fst a2 * dt / 2) * dt)
             (x self + (vx self + fst a2 * dt / 2) * dt) _
             (- vx self + - fst a3 * dt)
             (vx self + fst a3 * dt)) by field.
  fold a4. cbn [fst snd].
  unfold mirror_x, with_state. cbn [m k c g L0 mode x y vx vy t].
  f_equal; field.
Qed.

(** X11.  The vector step commutes with the mirror in the vertical axis:
    stepping the engine with [x] and [vx] negated gives the stepped engine
    with [x] and [vx] negated, [y] and [vy] being the same. *)
Theorem vector_step_commutes_with_mirror (self : SpringEngine) (dt : R) :
  m self <> 0 -> mode self <> "1D"%string ->
  exists self',
    step self dt = Ok (self', state_dict self') /\
    step (mirror_x self) dt = Ok (mirror_x self', state_dict (mirror_x self')).
Proof.
  intros Hm Hmode. exists (step_value self dt). split.
  - apply step_ok. exact Hm.
  - rewrite step_ok by exact Hm.
    rewrite (step_value_2d (mirror_x self) dt Hmode), (step_value_2d self dt Hmode).
    rewrite step_2d_value_mirror. reflexivity.
Qed.

Lemma vector_step_commutes_with_mirror_witness :
  (m polar_engine <> 0 /\ mode polar_engine <> "1D"%string) /\
  exists self',
    step polar_engine (1 / 120) = Ok (self', state_dict self') /\
    step (mirror_x polar_engine) (1 / 120)
      = Ok (mirror_x self', state_dict (mirror_x self')).
Proof.
  assert (Hm : m polar_engine <> 0) by (cbn; lra).
  assert (Hmode : mode polar_engine <> "1D"%string) by (cbn; discriminate).
  split; [split; assumption |].
  exact (vector_step_commutes_with_mirror polar_engine (1 / 120) Hm Hmode).
Defined.

(** X12.  In mode "1D" gravity, natural length, [y] and [vy] play no part:
    changing them changes neither the [x] and [vx] a step returns nor
    anything in the closed-form solution. *)
Theorem unused_in_1d (self : SpringEngine) (g' len' y' vy' dt : R) :
  m self <> 0 -> mode self = "1D"%string ->
  let other := with_unused_1d self g' len' y' vy' in
  (exists s1 s2,
     step self dt = Ok (s1, state_dict s1) /\
     step other dt = Ok (s2, state_dict s2) /\
     x s2 = x s1 /\ vx s2 = vx s1 /\ t s2 = t s1) /\
  get_analytical_solution other = get_analytical_solution self.
Proof.
  intros Hm Hmode other. split.
  - exists (step_value self dt), (step_value other dt).
    split; [apply step_ok; exact Hm |].
    split; [apply step_ok; exact Hm |].
    rewrite (step_value_1d self dt Hmode), (step_value_1d other dt Hmode).
    repeat split.
  - unfold get_analytical_solution, other.
    cbn [with_unused_1d m k c mode x vx]. rewrite Hmode. reflexivity.
Qed.

Lemma unused_in_1d_witness :
  (m test_engine <> 0 /\ mode test_engine = "1D"%string) /\
  get_analytical_solution (with_unused_1d test_engine 0 5 7 (-3))
  = get_analytical_solution test_engine.
Proof.
  assert (Hm : m test_engine <> 0) by (cbn; lra).
  split; [split; [exact Hm | reflexivity] |].
  exact (proj2 (unused_in_1d test_engine 0 5 7 (-3) 1 Hm eq_refl)).
Defined.

(** ** The closed-form solution: errors *)

(** X13.  What [get_analytical_solution] does with a bad mass or a bad
    sign: a zero mass raises [ZeroDivisionError]; stiffness and mass of
    opposite signs raise [ValueError] (square root of a negative ratio);
    in both cases before the mode or the state is looked at. *)
Theorem analytical_bad_mass (self : SpringEngine) :
  (m self = 0 -> get_analytical_solution self = Raise ZeroDivisionError) /\
  (m self <> 0 -> k self / m self < 0 ->
   get_analytical_solution self = Raise ValueError).
Proof.
  split.
  - intros Hm. unfold get_analytical_solution.
    rewrite py_div_zero by exact Hm. reflexivity.
  - intros Hm Hneg. unfold get_analytical_solution.
    rewrite py_div_ok by exact Hm. cbn [bind].
    rewrite math_sqrt_neg by exact Hneg. reflexivity.
Qed.

Lemma analytical_bad_mass_witness :
  let e0 := mkSpringEngine 0 4 0.2 9.81 1 "1D" 0.2 0 0 0 0 in
  let e1 := mkSpringEngine (-1) 4 0.2 9.81 1 "VECTOR" 0.2 0 0 0 0 in
  get_analytical_solution e0 = Raise ZeroDivisionError /\
  get_analytical_solution e1 = Raise ValueError.
Proof.
  intros e0 e1. split.
  - apply (proj1 (analytical_bad_mass e0)). reflexivity.
  - apply (proj2 (analytical_bad_mass e1)); cbn; lra.
Defined.



(** ** The closed-form solution: what the coefficients mean *)

Section Coefficients.
Variable self : SpringEngine.
Hypothesis Hm : 0 < m self.
Hypothesis Hk : 0 < k self.






End Coefficients.









Lemma math_hypot_reflect (x y : R) : math_hypot (- x) (- y) = math_hypot x y.
Proof. unfold math_hypot. f_equal. ring. Qed.

(** X19.  In Vector mode the closed-form solution forgets direction: the
    engine reflected through the origin (position and velocity negated)
    gets the same answer, error or descriptor; and the coefficient [A] of
    an underdamped or critical descriptor is the radius [hypot(x, y)],
    never negative. *)
Theorem vector_descriptor_forgets_direction (self : SpringEngine) :
  mode self <> "1D"%string ->
  get_analytical_solution (reflect_origin self) = get_analytical_solution self /\
  (0 < m self -> 0 < k self -> 0 <= c self -> zeta_spec self < 1 + 1e-9 ->
   exists d A,
     get_analytical_solution self = Ok d /\
     dict_get "A" d = Some (Float A) /\
     A = math_hypot (x self) (y self) /\ 0 <= A).
Proof.
  intros Hmode. pose proof Hmode as Hneq. apply String.eqb_neq in Hmode. split.
  - unfold get_analytical_solution.
    cbn [reflect_origin m k c mode x y vx vy]. rewrite Hmode.
    rewrite math_hypot_reflect.
    replace (- vx self * - x self + - vy self * - y self)
      with (vx self * x self + vy self * y self) by ring.
    reflexivity.
  - intros Hm Hk Hc Hz. pose proof (zeta_nonneg self Hm Hk Hc) as Hz0.
    assert (Hx0 : x0_spec self = math_hypot (x self) (y self)).
    { unfold x0_spec. rewrite Hmode. reflexivity. }
    destruct (Rlt_dec (zeta_spec self) 1) as [L | N].
    + exists (underdamped_spec self), (x0_spec self).
      split; [apply analytical_underdamped; try assumption; lra |].
      split; [reflexivity |]. split; [exact Hx0 |].
      rewrite Hx0. apply math_hypot_nonneg.
    + exists (critical_spec self), (x0_spec self).
      split; [apply analytical_critical; try assumption; lra |].
      split; [reflexivity |]. split; [exact Hx0 |].
      rewrite Hx0. apply math_hypot_nonneg.
Qed.

Lemma vector_descriptor_forgets_direction_witness :
  mode polar_engine <> "1D"%string /\
  get_analytical_solution (reflect_origin polar_engine)
  = get_analytical_solution polar_engine.
Proof.
  assert (Hmode : mode polar_engine <> "1D"%string) by (cbn; discriminate).
  split; [exact Hmode |].
  exact (proj1 (vector_descriptor_forgets_direction polar_engine Hmode)).
Defined.



